(** * The student directory: record store, filters and lookup

    A shallow embedding of [utils/students.js]: the 40-record array
    [students], the four filters [filterByCity], [filterBySubject],
    [filterByGender], [filterByName] and the lookup [findById], with the
    properties the specification states about them.

    JavaScript strings are sequences of UTF-16 code units; [===] on two
    strings compares those sequences, and [String.prototype.toLowerCase]
    is the locale-independent Unicode lower-casing of the host runtime. *)

From Stdlib Require Import NArith String Ascii Bool Arith Lia List Permutation.
Import ListNotations.

Set Implicit Arguments.

(** ** Strings *)

(** A string value: its UTF-16 code units, each in [0, 0xFFFF]. *)
Definition jsstring : Type := list N.

(** *** String literals

    The source file is UTF-8 text; a literal denotes the code units of the
    characters written between the quotes.  [utf16] reads the bytes of a
    literal that way, so the store can be written as the source writes it.
    A byte that starts no well-formed sequence reads as U+FFFD. *)

Definition is_continuation (b : N) : bool := ((0x80 <=? b) && (b <? 0xC0))%N.

Definition low6 (b : N) : N := N.land b 0x3F.

Definition units_of_code_point (cp : N) : list N :=
  if (cp <? 0x10000)%N then [cp]
  else
    let v := (cp - 0x10000)%N in
    [(0xD800 + N.shiftr v 10)%N; (0xDC00 + N.land v 0x3FF)%N].

Fixpoint decode_utf8 (bs : list N) : list N :=
  match bs with
  | [] => []
  | b0 :: t0 =>
    if (b0 <? 0x80)%N then b0 :: decode_utf8 t0
    else
      match t0 with
      | [] => [0xFFFD%N]
      | b1 :: t1 =>
        if ((0xC0 <=? b0) && (b0 <? 0xE0))%N && is_continuation b1 then
          N.lor (N.shiftl (N.land b0 0x1F) 6) (low6 b1) :: decode_utf8 t1
        else
          match t1 with
          | [] => 0xFFFD%N :: decode_utf8 t0
          | b2 :: t2 =>
            if ((0xE0 <=? b0) && (b0 <? 0xF0))%N
               && is_continuation b1 && is_continuation b2 then
              N.lor (N.shiftl (N.land b0 0x0F) 12)
                    (N.lor (N.shiftl (low6 b1) 6) (low6 b2))
              :: decode_utf8 t2
            else
              match t2 with
              | [] => 0xFFFD%N :: decode_utf8 t0
              | b3 :: t3 =>
                if ((0xF0 <=? b0) && (b0 <? 0xF8))%N && is_continuation b1
                   && is_continuation b2 && is_continuation b3 then
                  units_of_code_point
                    (N.lor (N.shiftl (N.land b0 0x07) 18)
                       (N.lor (N.shiftl (low6 b1) 12)
                          (N.lor (N.shiftl (low6 b2) 6) (low6 b3))))
                  ++ decode_utf8 t3
                else 0xFFFD%N :: decode_utf8 t0
              end
          end
      end
  end.

Definition utf16 (literal : string) : jsstring :=
  decode_utf8 (map N_of_ascii (list_ascii_of_string literal)).

(** *** Strict equality

    [a === b] on two strings: same length and the same code unit at every
    index. *)

Fixpoint strictEquals (a b : jsstring) : bool :=
  match a, b with
  | [], [] => true
  | x :: a', y :: b' => (x =? y)%N && strictEquals a' b'
  | _, _ => false
  end.

Infix "===" := strictEquals (at level 70, no associativity).

(** *** Lower-casing

    [toLowerCase] maps each character to its Unicode lower-case form.  On a
    string that stays within Basic Latin and Latin-1 Supplement (every code
    unit below 0x100) that is a unit-by-unit map: A-Z and the capital
    letters U+00C0-U+00DE other than the multiplication sign U+00D7 move up
    by 0x20, every other unit is kept.  Beyond Latin-1 the conversion
    depends on the runtime's Unicode tables (and is not unit-by-unit:
    U+0130, final sigma, surrogate pairs); it is the interface [Runtime]
    asks the host for. *)

Definition lower_latin1 (u : N) : N :=
  if ((0x41 <=? u) && (u <=? 0x5A))%N then (u + 0x20)%N
  else if ((0xC0 <=? u) && (u <=? 0xDE) && negb (u =? 0xD7))%N then (u + 0x20)%N
  else u.

Definition is_latin1 (s : jsstring) : bool := forallb (fun u => (u <? 0x100)%N) s.

Class Runtime : Type := { toLowerCaseWide : jsstring -> jsstring }.

Definition toLowerCase `{Runtime} (s : jsstring) : jsstring :=
  if is_latin1 s then map lower_latin1 s else toLowerCaseWide s.

(** A runtime for closed examples: strings beyond Latin-1 are left as they
    are.  No example below feeds it such a string. *)
Definition latin1Runtime : Runtime := {| toLowerCaseWide := fun s => s |}.

(** ** Records *)

Module Student.
Record t : Type := mk {
  ID : jsstring;
  firstname : jsstring;
  lastname : jsstring;
  gender : jsstring;
  birthdate : jsstring;
  studysubject : jsstring;
  city : jsstring
}.
End Student.
Import Student.

(** ** The store *)

Definition students : list Student.t :=
  [
    (* Physics: 5 male, 5 female *)
    {| ID := utf16 "S001"; firstname := utf16 "Anna"; lastname := utf16 "Schmidt";
       gender := utf16 "female"; birthdate := utf16 "1998-03-15";
       studysubject := utf16 "Physics"; city := utf16 "Munich" |};
    {| ID := utf16 "S002"; firstname := utf16 "Ben"; lastname := utf16 "Müller";
       gender := utf16 "male"; birthdate := utf16 "1997-06-22";
       studysubject := utf16 "Physics"; city := utf16 "Vienna" |};
    {| ID := utf16 "S003"; firstname := utf16 "Clara"; lastname := utf16 "Weber";
       gender := utf16 "female"; birthdate := utf16 "1999-01-10";
       studysubject := utf16 "Physics"; city := utf16 "Prague" |};
    {| ID := utf16 "S004"; firstname := utf16 "David"; lastname := utf16 "Fischer";
       gender := utf16 "male"; birthdate := utf16 "1996-11-05";
       studysubject := utf16 "Physics"; city := utf16 "Madrid" |};
    {| ID := utf16 "S005"; firstname := utf16 "Emma"; lastname := utf16 "Meyer";
       gender := utf16 "female"; birthdate := utf16 "1998-07-19";
       studysubject := utf16 "Physics"; city := utf16 "Paris" |};
    {| ID := utf16 "S006"; firstname := utf16 "Finn"; lastname := utf16 "Schulz";
       gender := utf16 "male"; birthdate := utf16 "1997-04-12";
       studysubject := utf16 "Physics"; city := utf16 "Rome" |};
    {| ID := utf16 "S007"; firstname := utf16 "Greta"; lastname := utf16 "Koch";
       gender := utf16 "female"; birthdate := utf16 "1999-09-25";
       studysubject := utf16 "Physics"; city := utf16 "Munich" |};
    {| ID := utf16 "S008"; firstname := utf16 "Hannes"; lastname := utf16 "Bauer";
       gender := utf16 "male"; birthdate := utf16 "1996-12-30";
       studysubject := utf16 "Physics"; city := utf16 "Vienna" |};
    {| ID := utf16 "S009"; firstname := utf16 "Ida"; lastname := utf16 "Richter";
       gender := utf16 "female"; birthdate := utf16 "1998-02-08";
       studysubject := utf16 "Physics"; city := utf16 "Prague" |};
    {| ID := utf16 "S010"; firstname := utf16 "Jonas"; lastname := utf16 "Schäfer";
       gender := utf16 "male"; birthdate := utf16 "1997-08-14";
       studysubject := utf16 "Physics"; city := utf16 "Madrid" |};
    (* Mathematics: 5 male, 5 female *)
    {| ID := utf16 "S011"; firstname := utf16 "Klara"; lastname := utf16 "Wagner";
       gender := utf16 "female"; birthdate := utf16 "1999-05-03";
       studysubject := utf16 "Mathematics"; city := utf16 "Paris" |};
    {| ID := utf16 "S012"; firstname := utf16 "Lars"; lastname := utf16 "Becker";
       gender := utf16 "male"; birthdate := utf16 "1996-10-17";
       studysubject := utf16 "Mathematics"; city := utf16 "Rome" |};
    {| ID := utf16 "S013"; firstname := utf16 "Mia"; lastname := utf16 "Hofmann";
       gender := utf16 "female"; birthdate := utf16 "1998-04-29";
       studysubject := utf16 "Mathematics"; city := utf16 "Munich" |};
    {| ID := utf16 "S014"; firstname := utf16 "Noah"; lastname := utf16 "Schröder";
       gender := utf16 "male"; birthdate := utf16 "1997-03-11";
       studysubject := utf16 "Mathematics"; city := utf16 "Vienna" |};
    {| ID := utf16 "S015"; firstname := utf16 "Olivia"; lastname := utf16 "Neumann";
       gender := utf16 "female"; birthdate := utf16 "1999-06-26";
       studysubject := utf16 "Mathematics"; city := utf16 "Prague" |};
    {| ID := utf16 "S016"; firstname := utf16 "Paul"; lastname := utf16 "Schwarz";
       gender := utf16 "male"; birthdate := utf16 "1996-09-08";
       studysubject := utf16 "Mathematics"; city := utf16 "Madrid" |};
    {| ID := utf16 "S017"; firstname := utf16 "Quinn"; lastname := utf16 "Zimmermann";
       gender := utf16 "female"; birthdate := utf16 "1998-01-14";
       studysubject := utf16 "Mathematics"; city := utf16 "Paris" |};
    {| ID := utf16 "S018"; firstname := utf16 "Ruben"; lastname := utf16 "Krause";
       gender := utf16 "male"; birthdate := utf16 "1997-07-20";
       studysubject := utf16 "Mathematics"; city := utf16 "Rome" |};
    {| ID := utf16 "S019"; firstname := utf16 "Sophie"; lastname := utf16 "Schneider";
       gender := utf16 "female"; birthdate := utf16 "1999-02-27";
       studysubject := utf16 "Mathematics"; city := utf16 "Munich" |};
    {| ID := utf16 "S020"; firstname := utf16 "Theo"; lastname := utf16 "Schubert";
       gender := utf16 "male"; birthdate := utf16 "1996-12-03";
       studysubject := utf16 "Mathematics"; city := utf16 "Vienna" |};
    (* Computer Science: 5 male, 5 female *)
    {| ID := utf16 "S021"; firstname := utf16 "Ursula"; lastname := utf16 "Fuchs";
       gender := utf16 "female"; birthdate := utf16 "1998-08-16";
       studysubject := utf16 "Computer Science"; city := utf16 "Prague" |};
    {| ID := utf16 "S022"; firstname := utf16 "Viktor"; lastname := utf16 "Schreiber";
       gender := utf16 "male"; birthdate := utf16 "1997-05-09";
       studysubject := utf16 "Computer Science"; city := utf16 "Madrid" |};
    {| ID := utf16 "S023"; firstname := utf16 "Wanda"; lastname := utf16 "Vogel";
       gender := utf16 "female"; birthdate := utf16 "1999-03-22";
       studysubject := utf16 "Computer Science"; city := utf16 "Paris" |};
    {| ID := utf16 "S024"; firstname := utf16 "Xaver"; lastname := utf16 "Wolff";
       gender := utf16 "male"; birthdate := utf16 "1996-11-28";
       studysubject := utf16 "Computer Science"; city := utf16 "Rome" |};
    {| ID := utf16 "S025"; firstname := utf16 "Yara"; lastname := utf16 "Schröter";
       gender := utf16 "female"; birthdate := utf16 "1998-06-04";
       studysubject := utf16 "Computer Science"; city := utf16 "Munich" |};
    {| ID := utf16 "S026"; firstname := utf16 "Zane"; lastname := utf16 "Fischer";
       gender := utf16 "male"; birthdate := utf16 "1997-02-15";
       studysubject := utf16 "Computer Science"; city := utf16 "Vienna" |};
    {| ID := utf16 "S027"; firstname := utf16 "Alma"; lastname := utf16 "Mayer";
       gender := utf16 "female"; birthdate := utf16 "1999-07-31";
       studysubject := utf16 "Computer Science"; city := utf16 "Prague" |};
    {| ID := utf16 "S028"; firstname := utf16 "Bruno"; lastname := utf16 "König";
       gender := utf16 "male"; birthdate := utf16 "1996-10-23";
       studysubject := utf16 "Computer Science"; city := utf16 "Madrid" |};
    {| ID := utf16 "S029"; firstname := utf16 "Celine"; lastname := utf16 "Schulz";
       gender := utf16 "female"; birthdate := utf16 "1998-09-12";
       studysubject := utf16 "Computer Science"; city := utf16 "Paris" |};
    {| ID := utf16 "S030"; firstname := utf16 "Dorian"; lastname := utf16 "Weber";
       gender := utf16 "male"; birthdate := utf16 "1997-04-06";
       studysubject := utf16 "Computer Science"; city := utf16 "Rome" |};
    (* Medicine: 5 male, 5 female *)
    {| ID := utf16 "S031"; firstname := utf16 "Elisa"; lastname := utf16 "Bauer";
       gender := utf16 "female"; birthdate := utf16 "1999-01-19";
       studysubject := utf16 "Medicine"; city := utf16 "Munich" |};
    {| ID := utf16 "S032"; firstname := utf16 "Felix"; lastname := utf16 "Richter";
       gender := utf16 "male"; birthdate := utf16 "1996-08-02";
       studysubject := utf16 "Medicine"; city := utf16 "Vienna" |};
    {| ID := utf16 "S033"; firstname := utf16 "Gina"; lastname := utf16 "Kuhn";
       gender := utf16 "female"; birthdate := utf16 "1998-03-27";
       studysubject := utf16 "Medicine"; city := utf16 "Prague" |};
    {| ID := utf16 "S034"; firstname := utf16 "Henry"; lastname := utf16 "Schäfer";
       gender := utf16 "male"; birthdate := utf16 "1997-06-13";
       studysubject := utf16 "Medicine"; city := utf16 "Madrid" |};
    {| ID := utf16 "S035"; firstname := utf16 "Iris"; lastname := utf16 "Wagner";
       gender := utf16 "female"; birthdate := utf16 "1999-05-08";
       studysubject := utf16 "Medicine"; city := utf16 "Paris" |};
    {| ID := utf16 "S036"; firstname := utf16 "Julian"; lastname := utf16 "Becker";
       gender := utf16 "male"; birthdate := utf16 "1996-12-15";
       studysubject := utf16 "Medicine"; city := utf16 "Rome" |};
    {| ID := utf16 "S037"; firstname := utf16 "Kaja"; lastname := utf16 "Hofmann";
       gender := utf16 "female"; birthdate := utf16 "1998-02-21";
       studysubject := utf16 "Medicine"; city := utf16 "Munich" |};
    {| ID := utf16 "S038"; firstname := utf16 "Leon"; lastname := utf16 "Schröder";
       gender := utf16 "male"; birthdate := utf16 "1997-09-04";
       studysubject := utf16 "Medicine"; city := utf16 "Vienna" |};
    {| ID := utf16 "S039"; firstname := utf16 "Mira"; lastname := utf16 "Neumann";
       gender := utf16 "female"; birthdate := utf16 "1999-04-17";
       studysubject := utf16 "Medicine"; city := utf16 "Prague" |};
    {| ID := utf16 "S040"; firstname := utf16 "Nico"; lastname := utf16 "Schwarz";
       gender := utf16 "male"; birthdate := utf16 "1996-07-29";
       studysubject := utf16 "Medicine"; city := utf16 "Madrid" |}
  ].

(** ** Filter functions

    [Array.prototype.filter] keeps, in index order, the elements on which
    the callback answers true: [List.filter]. *)

Section Filters.
Context `{Runtime}.

Definition filterByCity (students : list Student.t) (city : jsstring)
  : list Student.t :=
  filter
    (fun student => toLowerCase (Student.city student) === toLowerCase city)
    students.

Definition filterBySubject (students : list Student.t) (subject : jsstring)
  : list Student.t :=
  filter
    (fun student =>
       toLowerCase (Student.studysubject student) === toLowerCase subject)
    students.

Definition filterByGender (students : list Student.t) (gender : jsstring)
  : list Student.t :=
  filter
    (fun student =>
       toLowerCase (Student.gender student) === toLowerCase gender)
    students.

Definition filterByName (students : list Student.t) (name : jsstring)
  : list Student.t :=
  filter
    (fun student =>
       (toLowerCase (Student.firstname student) === toLowerCase name)
       || (toLowerCase (Student.lastname student) === toLowerCase name))
    students.
End Filters.

(** ** Lookup

    [students.find(cb) || null]: [find] answers the first element on which
    the callback is true, or [undefined]; [||] answers its left operand
    when that is truthy (an object always is) and its right operand
    otherwise ([undefined] is falsy). *)

Inductive found : Type :=
| Object (student : Student.t)
| Undefined
| Null.

Definition array_find (callback : Student.t -> bool) (students : list Student.t)
  : found :=
  match find callback students with
  | Some student => Object student
  | None => Undefined
  end.

Definition truthy (v : found) : bool :=
  match v with
  | Object _ => true
  | Undefined | Null => false
  end.

Definition or_else (left right : found) : found :=
  if truthy left then left else right.

Definition findById (students : list Student.t) (id : jsstring) : found :=
  or_else (array_find (fun student => Student.ID student === id) students) Null.

(** ** The catch-all page's call site

    [getStaticProps] of [pages/students/gscatchallssg/[[...gendersubject]].js],
    reduced to the [students] prop it computes.  [params.gendersubject] is
    [undefined] on the root path and an array of path segments otherwise;
    [x || []] keeps an array (arrays are truthy, also the empty one);
    indexing past the end answers [undefined]; [if (s)] on a string or
    [undefined] holds for a non-empty string only. *)

Definition getStaticProps `{Runtime} (gendersubject : option (list jsstring))
  : list Student.t :=
  let gendersubject :=
    match gendersubject with Some segments => segments | None => [] end in
  let gender := nth_error gendersubject 0 in
  let subject := nth_error gendersubject 1 in
  let filteredStudents := students in
  let filteredStudents :=
    match gender with
    | Some (u :: g) => filterByGender filteredStudents (u :: g)
    | Some [] | None => filteredStudents
    end in
  let filteredStudents :=
    match subject with
    | Some (u :: s) => filterBySubject filteredStudents (u :: s)
    | Some [] | None => filteredStudents
    end in
  filteredStudents.

(** What a page's [getStaticPaths] answers: the paths to prerender, each
    by its [params], and the [fallback] policy. *)
Record StaticPaths (P : Type) : Type := {
  paths : list P;
  fallback : bool
}.

(** [getStaticPaths] of the catch-all page.  [paths] starts with the root
    path (no segments: [gendersubject] is [undefined]); the two nested
    [forEach] loops push one path per gender and subject, gender outermost. *)
Definition getStaticPaths : StaticPaths (option (list jsstring)) :=
  let genders := map utf16 ["male"; "female"]%string in
  let subjects :=
    map utf16 ["Physics"; "Mathematics"; "Computer Science"; "Medicine"]%string in
  let paths := [None] in
  let paths :=
    fold_left
      (fun paths gender =>
         fold_left
           (fun paths subject => paths ++ [Some [gender; subject]])
           subjects paths)
      genders paths in
  {| paths := paths; fallback := false |}.

(** ** The single-student page, [[ID].js]

    [getStaticPaths] maps every record of the store to the path with its
    [ID]; [getStaticProps] looks the path's [ID] up in the store and hands
    the outcome to the page as its [student] prop. *)

Module StudentPage.
Record params : Type := { ID : jsstring }.

Definition getStaticPaths : StaticPaths params :=
  let paths := map (fun student => {| ID := Student.ID student |}) students in
  {| paths := paths; fallback := false |}.

Definition getStaticProps (params : params) : found :=
  let student := findById students (ID params) in
  student.
End StudentPage.

(** ** The client-side page, [CSRPage] of [all.js]

    The effect runs on mount and whenever the [gender] or [subject] state
    changes, and stores its [result] in the [filteredStudents] state; both
    states are strings, [""] at first and for the option "All".  [if (s)]
    on a string holds unless the string is empty. *)

Module CSRPage.
Definition string_truthy (s : jsstring) : bool :=
  match s with
  | [] => false
  | _ :: _ => true
  end.

Definition filteredStudents `{Runtime} (gender subject : jsstring)
  : list Student.t :=
  let result := students in
  let result :=
    if string_truthy gender then filterByGender result gender else result in
  let result :=
    if string_truthy subject then filterBySubject result subject else result in
  result.
End CSRPage.

(** ** What the specification speaks of *)

(** [Selects P input output]: [output] is [input] with exactly the elements
    that satisfy [P] kept, each as often and in the order it occurs. *)
Inductive Selects (A : Type) (P : A -> Prop) : list A -> list A -> Prop :=
| Selects_nil : Selects P [] []
| Selects_keep x input output :
    P x -> Selects P input output -> Selects P (x :: input) (x :: output)
| Selects_drop x input output :
    ~ P x -> Selects P input output -> Selects P (x :: input) output.

(** [Subseq output input]: [output] arises from [input] by deleting
    elements. *)
Inductive Subseq (A : Type) : list A -> list A -> Prop :=
| Subseq_nil : Subseq [] []
| Subseq_take x output input :
    Subseq output input -> Subseq (x :: output) (x :: input)
| Subseq_skip x output input :
    Subseq output input -> Subseq output (x :: input).

(** [StableSelection output input]: every position of [output] comes from
    a position of [input] holding the same element, and later positions
    come from later positions. *)
Definition StableSelection (A : Type) (output input : list A) : Prop :=
  exists origin : nat -> nat,
    (forall i j, i < j -> j < length output -> origin i < origin j)
    /\ (forall i, i < length output ->
                  nth_error output i = nth_error input (origin i)).

(** Equality under case-insensitive comparison, as the filters test it:
    the two lower-cased strings are the same string. *)
Definition sameLower `{Runtime} (a b : jsstring) : Prop :=
  toLowerCase a = toLowerCase b.

(** * Properties *)

Create HintDb selection discriminated.
#[local] Hint Constructors Selects Subseq : selection.

(** ** Strings *)

(** Literals: one unit per ASCII character, one for a Latin-1 letter
    written in two bytes, two (a surrogate pair) beyond the basic plane. *)
Example utf16_ascii : utf16 "S001" = [0x53; 0x30; 0x30; 0x31]%N.
Proof. reflexivity. Qed.

Example utf16_latin1 : utf16 "Müller" = [0x4D; 0xFC; 0x6C; 0x6C; 0x65; 0x72]%N.
Proof. reflexivity. Qed.

Example utf16_three_bytes : utf16 "€" = [0x20AC]%N.
Proof. reflexivity. Qed.

Example utf16_surrogates : utf16 "😀" = [0xD83D; 0xDE00]%N.
Proof. reflexivity. Qed.

(** Lower-casing within Latin-1: letters move, the multiplication sign,
    sharp s and y with diaeresis stay. *)
Example toLowerCase_latin1 `{Runtime} :
  toLowerCase (utf16 "MÜLLER ÀÖ×ØÞßÿ 42") = utf16 "müller àö×øþßÿ 42".
Proof. reflexivity. Qed.

(** Beyond Latin-1 the runtime decides. *)
Example toLowerCase_wide `{Runtime} :
  toLowerCase (utf16 "ΣΑΣ") = toLowerCaseWide (utf16 "ΣΑΣ").
Proof. reflexivity. Qed.

Lemma strictEquals_true_iff (a b : jsstring) : (a === b) = true <-> a = b.
Proof.
  revert b; induction a as [|x a IH]; intros [|y b]; simpl;
    try (split; [discriminate | congruence]); try tauto.
  rewrite andb_true_iff, N.eqb_eq, IH.
  split; [intros [-> ->]; reflexivity | intros [= -> ->]; auto].
Qed.

Lemma strictEquals_false_iff (a b : jsstring) : (a === b) = false <-> a <> b.
Proof.
  rewrite <- strictEquals_true_iff. destruct (a === b); split; congruence.
Qed.

Lemma strictEquals_refl (a : jsstring) : (a === a) = true.
Proof. apply strictEquals_true_iff; reflexivity. Qed.

Lemma strictEquals_reflect (a b : jsstring) : reflect (a = b) (a === b).
Proof. apply iff_reflect; symmetry; apply strictEquals_true_iff. Qed.

(** ** Selection by a boolean callback *)

Section Selection.
Variable A : Type.
Variable P : A -> Prop.
Variable callback : A -> bool.
Hypothesis callback_spec : forall x, callback x = true <-> P x.

Lemma Selects_filter (l : list A) : Selects P l (filter callback l).
Proof.
  induction l as [|x l IH]; simpl; auto with selection.
  destruct (callback x) eqn:E.
  - apply Selects_keep; [apply callback_spec|]; assumption.
  - apply Selects_drop; [|assumption].
    rewrite <- callback_spec; congruence.
Qed.

Lemma Selects_functional (l o1 o2 : list A) :
  Selects P l o1 -> Selects P l o2 -> o1 = o2.
Proof.
  intros S1; revert o2.
  induction S1; intros o2 S2; inversion S2; subst;
    try contradiction; auto; f_equal; auto.
Qed.

Lemma Selects_In (l o : list A) :
  Selects P l o -> forall x, In x o <-> In x l /\ P x.
Proof.
  induction 1 as [|y l o Py _ IH|y l o nPy _ IH]; intros x; simpl.
  - tauto.
  - rewrite IH; split; [intros [->|[? ?]]; auto | intros [[->|?] ?]; auto].
  - rewrite IH; split; [intros [? ?]; auto | intros [[->|?] ?]; tauto].
Qed.
End Selection.

(** ** Subsequences *)

Section Subsequences.
Variable A : Type.

Lemma Subseq_filter (f : A -> bool) (l : list A) : Subseq (filter f l) l.
Proof.
  induction l as [|x l IH]; simpl; [|destruct (f x)]; auto with selection.
Qed.

Lemma Subseq_In (o l : list A) : Subseq o l -> forall x, In x o -> In x l.
Proof. induction 1; simpl; intuition. Qed.

Lemma Subseq_stable (o l : list A) : Subseq o l -> StableSelection o l.
Proof.
  induction 1 as [|x o l _ [g [Hmono Hsame]]|x o l _ [g [Hmono Hsame]]].
  - exists (fun i => i); split; simpl; intros; lia.
  - exists (fun i => match i with 0 => 0 | S k => S (g k) end); split.
    + intros [|i] [|j] Hij Hj; simpl in *; try lia.
      apply -> Nat.succ_lt_mono. apply Hmono; lia.
    + intros [|i] Hi; simpl in *; [reflexivity | apply Hsame; lia].
  - exists (fun i => S (g i)); split.
    + intros i j Hij Hj. apply -> Nat.succ_lt_mono. auto.
    + intros i Hi; simpl. auto.
Qed.
End Subsequences.

(** ** The filters select by their predicate *)

Section FilterFacts.
Context `{Runtime}.

Lemma sameLower_callback (a b : jsstring) :
  (toLowerCase a === toLowerCase b) = true <-> sameLower a b.
Proof. apply strictEquals_true_iff. Qed.

Lemma filterByCity_Selects (records : list Student.t) (c : jsstring) :
  Selects (fun r => sameLower (city r) c) records (filterByCity records c).
Proof. apply Selects_filter; intros r; apply sameLower_callback. Qed.

Lemma filterBySubject_Selects (records : list Student.t) (s : jsstring) :
  Selects (fun r => sameLower (studysubject r) s) records
          (filterBySubject records s).
Proof. apply Selects_filter; intros r; apply sameLower_callback. Qed.

Lemma filterByGender_Selects (records : list Student.t) (g : jsstring) :
  Selects (fun r => sameLower (gender r) g) records (filterByGender records g).
Proof. apply Selects_filter; intros r; apply sameLower_callback. Qed.

Lemma filterByName_Selects (records : list Student.t) (n : jsstring) :
  Selects (fun r => sameLower (firstname r) n \/ sameLower (lastname r) n)
          records (filterByName records n).
Proof.
  apply Selects_filter; intros r.
  rewrite orb_true_iff, !sameLower_callback; reflexivity.
Qed.

Lemma filter_none (A : Type) (f : A -> bool) (l : list A) :
  (forall x, In x l -> f x = false) -> filter f l = [].
Proof.
  induction l as [|x l IH]; simpl; intros Hf; [reflexivity|].
  rewrite (Hf x) by auto. apply IH; auto.
Qed.

Lemma filterByCity_no_match (records : list Student.t) (c : jsstring) :
  (forall r, In r records -> ~ sameLower (city r) c) ->
  filterByCity records c = [].
Proof.
  intros Hno. apply filter_none. intros r Hr.
  apply strictEquals_false_iff, (Hno r Hr).
Qed.
End FilterFacts.

(** Deciding "no record matches" by evaluating the callback on a concrete
    sequence. *)
Lemma forallb_not_sameLower `{Runtime}
      (field : Student.t -> jsstring) (records : list Student.t) (c : jsstring) :
  forallb (fun r => negb (toLowerCase (field r) === toLowerCase c)) records = true ->
  forall r, In r records -> ~ sameLower (field r) c.
Proof.
  intros Hall r Hr Hsame.
  rewrite forallb_forall in Hall. specialize (Hall r Hr).
  apply sameLower_callback in Hsame. rewrite Hsame in Hall. discriminate.
Qed.

(** ** [filterByCity] *)

(** C2: [filterByCity records c] is exactly the subsequence of [records]
    whose [city] equals [c] under case-insensitive comparison (and no other
    sequence is); it is a total function, with no error outcome; on the
    empty sequence, and when no record matches, its value is the empty
    sequence. *)
Theorem filterByCity_correct `{Runtime} (records : list Student.t) (c : jsstring) :
  Selects (fun r => sameLower (city r) c) records (filterByCity records c)
  /\ (forall output,
         Selects (fun r => sameLower (city r) c) records output ->
         output = filterByCity records c)
  /\ filterByCity [] c = []
  /\ ((forall r, In r records -> ~ sameLower (city r) c) ->
      filterByCity records c = []).
Proof.
  split; [apply filterByCity_Selects|].
  split; [|split; [reflexivity | apply filterByCity_no_match]].
  intros output Hsel.
  exact (Selects_functional Hsel (filterByCity_Selects records c)).
Qed.

Lemma filterByCity_correct_witness :
  @filterByCity latin1Runtime students (utf16 "Lisbon") = [].
Proof.
  refine (proj2 (proj2 (proj2
    (@filterByCity_correct latin1Runtime students (utf16 "Lisbon")))) _).
  apply forallb_not_sameLower. vm_compute. reflexivity.
Defined.

(** ** [findById] *)

Lemma find_first (A : Type) (f : A -> bool) (l : list A) :
  match find f l with
  | Some x =>
    exists before after,
      l = before ++ x :: after
      /\ f x = true
      /\ forall y, In y before -> f y = false
  | None => forall y, In y l -> f y = false
  end.
Proof.
  induction l as [|a l IH]; simpl; [tauto|].
  destruct (f a) eqn:Ea.
  - exists [], l; simpl; tauto.
  - destruct (find f l) as [x|].
    + destruct IH as (before & after & -> & Hx & Hbefore).
      exists (a :: before), after; simpl; repeat split; auto.
      intros y [<-|Hy]; auto.
    + intros y [<-|Hy]; auto.
Qed.

(** C3: [findById records id] is the first record of [records] whose [ID]
    is exactly [id] (the same code units, so upper and lower case differ),
    and [null] when no record has that [ID]; it is total, and its value is
    never [undefined]. *)
Theorem findById_first (records : list Student.t) (id : jsstring) :
  ((exists before r after,
       records = before ++ r :: after
       /\ ID r = id
       /\ (forall x, In x before -> ID x <> id)
       /\ findById records id = Object r)
   \/ ((forall x, In x records -> ID x <> id)
       /\ findById records id = Null))
  /\ findById records id <> Undefined
  /\ findById students (utf16 "S001") <> Null
  /\ findById students (utf16 "s001") = Null.
Proof.
  assert (Hcases :
    (exists before r after,
        records = before ++ r :: after
        /\ ID r = id
        /\ (forall x, In x before -> ID x <> id)
        /\ findById records id = Object r)
    \/ ((forall x, In x records -> ID x <> id)
        /\ findById records id = Null)).
  { unfold findById, array_find.
    pose proof (find_first (fun student => ID student === id) records) as Hfind.
    destruct (find _ records) as [r|].
    - left. destruct Hfind as (before & after & -> & Hr & Hbefore).
      exists before, r, after. repeat split.
      + apply strictEquals_true_iff, Hr.
      + intros x Hx. apply strictEquals_false_iff, Hbefore, Hx.
    - right. split; [|reflexivity].
      intros x Hx. apply strictEquals_false_iff, Hfind, Hx. }
  split; [exact Hcases|].
  split; [|split; [vm_compute; discriminate | vm_compute; reflexivity]].
  destruct Hcases as [(? & ? & ? & _ & _ & _ & ->)|[_ ->]]; discriminate.
Qed.

(** ** Order preservation *)

(** C4: for each of [filterByCity], [filterBySubject], [filterByGender] and
    [filterByName], every input sequence and every argument, the output is
    a subsequence of the input: each surviving record occurs in the input,
    and the survivors stand in the order the input has them. *)
Theorem filters_are_subsequences `{Runtime}
        (records : list Student.t) (arg : jsstring) :
  Forall
    (fun filterBy : list Student.t -> jsstring -> list Student.t =>
       Subseq (filterBy records arg) records
       /\ (forall r, In r (filterBy records arg) -> In r records)
       /\ StableSelection (filterBy records arg) records)
    [filterByCity; filterBySubject; filterByGender; filterByName].
Proof.
  repeat constructor;
    try (apply Subseq_stable); try (apply Subseq_In); apply Subseq_filter.
Qed.

(** ** [filterByName] *)

(** C5: [filterByName records n] is exactly the subsequence of [records]
    whose [firstname] or whose [lastname] equals [n] under case-insensitive
    comparison of the whole string.  On the store: a proper prefix of a
    first name and the two names joined select nothing, a first name alone
    and a last name alone select their record. *)
Theorem filterByName_correct `{Runtime} (records : list Student.t) (n : jsstring) :
  Selects (fun r => sameLower (firstname r) n \/ sameLower (lastname r) n)
          records (filterByName records n)
  /\ (forall output,
         Selects (fun r => sameLower (firstname r) n \/ sameLower (lastname r) n)
                 records output ->
         output = filterByName records n)
  /\ filterByName students (utf16 "Ann") = []
  /\ filterByName students (utf16 "Anna Schmidt") = []
  /\ map ID (filterByName students (utf16 "anna")) = [utf16 "S001"]
  /\ map ID (filterByName students (utf16 "MÜLLER")) = [utf16 "S002"].
Proof.
  split; [apply filterByName_Selects|].
  split; [|repeat split; vm_compute; reflexivity].
  intros output Hsel.
  exact (Selects_functional Hsel (filterByName_Selects records n)).
Qed.

(** ** Composition of filters *)

Lemma filter_twice (A : Type) (f g : A -> bool) (l : list A) :
  filter g (filter f l) = filter (fun x => f x && g x) l.
Proof.
  induction l as [|x l IH]; simpl; [reflexivity|].
  destruct (f x); simpl; [destruct (g x)|]; congruence.
Qed.

Lemma filter_swap (A : Type) (f g : A -> bool) (l : list A) :
  filter g (filter f l) = filter f (filter g l).
Proof.
  rewrite !filter_twice. apply filter_ext. intros x. apply andb_comm.
Qed.

Lemma filter_idempotent (A : Type) (f : A -> bool) (l : list A) :
  filter f (filter f l) = filter f l.
Proof.
  rewrite filter_twice. apply filter_ext. intros x. apply andb_diag.
Qed.

(** The catch-all page, on a path [/gender/subject] with two non-empty
    segments, filters the store by gender and the result by subject. *)
Lemma getStaticProps_gender_subject `{Runtime} (g s : jsstring) :
  g <> [] -> s <> [] ->
  getStaticProps (Some [g; s]) = filterBySubject (filterByGender students g) s.
Proof.
  intros Hg Hs.
  destruct g; [contradiction|]. destruct s; [contradiction|]. reflexivity.
Qed.

(** On the root path nothing is filtered. *)
Lemma getStaticProps_root `{Runtime} : getStaticProps None = students.
Proof. reflexivity. Qed.

(** C1: filtering by gender [g] and then by subject [s] keeps exactly the
    records whose gender equals [g] and whose study subject equals [s],
    both case-insensitively, in their original order; filtering by subject
    first and by gender second gives the same sequence.  On the store,
    gender "male" then subject "Medicine" gives the records whose [gender]
    is "male" and whose [studysubject] is "Medicine", in store order. *)
Theorem gender_then_subject_conjunctive `{Runtime}
        (records : list Student.t) (g s : jsstring) :
  Selects (fun r => sameLower (gender r) g /\ sameLower (studysubject r) s)
          records (filterBySubject (filterByGender records g) s)
  /\ filterByGender (filterBySubject records s) g
     = filterBySubject (filterByGender records g) s
  /\ filterBySubject (filterByGender students (utf16 "male")) (utf16 "Medicine")
     = filter (fun r => (gender r === utf16 "male")
                        && (studysubject r === utf16 "Medicine"))
              students.
Proof.
  split; [|split].
  - unfold filterBySubject, filterByGender. rewrite filter_twice.
    apply Selects_filter. intros r.
    rewrite andb_true_iff, !sameLower_callback. reflexivity.
  - apply filter_swap.
  - vm_compute. reflexivity.
Qed.

(** C7: [filterBySubject] is idempotent: filtering the result again by the
    same subject gives the same sequence, for every input and subject, and
    so for the store and "Physics". *)
Theorem filterBySubject_idempotent `{Runtime}
        (records : list Student.t) (s : jsstring) :
  filterBySubject (filterBySubject records s) s = filterBySubject records s
  /\ filterBySubject (filterBySubject students (utf16 "Physics")) (utf16 "Physics")
     = filterBySubject students (utf16 "Physics").
Proof. split; apply filter_idempotent. Qed.

(** ** Cities that are not in the store *)

Lemma not_In_by_evaluation (x : jsstring) (l : list jsstring) :
  forallb (fun y => negb (x === y)) l = true -> ~ In x l.
Proof.
  rewrite forallb_forall. intros Hall Hin.
  specialize (Hall x Hin). rewrite strictEquals_refl in Hall. discriminate.
Qed.

(** C6, as stated, fails: "munich" is the [city] field of no record (the
    store writes "Munich"), and [filterByCity] still answers the seven
    records of Munich, whatever the runtime. *)
Lemma filterByCity_absent_city_counterexample :
  ~ In (utf16 "munich") (map city students)
  /\ forall runtime : Runtime,
      map ID (@filterByCity runtime students (utf16 "munich"))
      = map utf16 ["S001"; "S007"; "S013"; "S019"; "S025"; "S031"; "S037"]%string.
Proof.
  split.
  - apply not_In_by_evaluation. vm_compute. reflexivity.
  - intros runtime. vm_compute. reflexivity.
Qed.

(** C6, amended: for every city value [C] that equals the [city] field of
    no record of the store under case-insensitive comparison,
    [filterByCity students C] is the empty sequence. *)
Theorem filterByCity_absent_city `{Runtime} (C : jsstring) :
  (forall r, In r students -> ~ sameLower (city r) C) ->
  filterByCity students C = [].
Proof. apply filterByCity_no_match. Qed.

Lemma filterByCity_absent_city_witness :
  (forall r, In r students -> ~ @sameLower latin1Runtime (city r) (utf16 "Berlin"))
  /\ @filterByCity latin1Runtime students (utf16 "Berlin") = [].
Proof.
  assert (Habsent : forall r, In r students ->
                              ~ @sameLower latin1Runtime (city r) (utf16 "Berlin")).
  { apply forallb_not_sameLower. vm_compute. reflexivity. }
  split; [exact Habsent|].
  exact (@filterByCity_absent_city latin1Runtime (utf16 "Berlin") Habsent).
Defined.

(** ** The store *)

Lemma students_ID_NoDup : NoDup (map ID students).
Proof.
  assert (Hfixed : nodup (list_eq_dec N.eq_dec) (map ID students)
                   = map ID students)
    by (vm_compute; reflexivity).
  rewrite <- Hfixed. apply NoDup_nodup.
Qed.

Lemma NoDup_map_positions (A B : Type) (f : A -> B) (l : list A) :
  NoDup (map f l) ->
  forall i j x y,
    nth_error l i = Some x -> nth_error l j = Some y -> i <> j -> f x <> f y.
Proof.
  intros Hnodup i j x y Hi Hj Hij Hxy.
  apply Hij.
  apply (proj1 (NoDup_nth_error (map f l)) Hnodup).
  - rewrite length_map. apply nth_error_Some. congruence.
  - rewrite (map_nth_error f _ _ Hi), (map_nth_error f _ _ Hj). congruence.
Qed.

Lemma NoDup_ID_one_match (records : list Student.t) (id : jsstring) :
  NoDup (map ID records) ->
  length (filter (fun student => ID student === id) records) <= 1.
Proof.
  induction records as [|a records IH]; simpl; intros Hnodup; [lia|].
  inversion Hnodup as [|? ? Hfresh Hrest]; subst.
  destruct (strictEquals_reflect (ID a) id) as [Heq|Hne]; [|auto].
  rewrite filter_none; [simpl; lia|].
  intros x Hx. apply strictEquals_false_iff. intros Hxid.
  apply Hfresh. rewrite Heq, <- Hxid. apply in_map, Hx.
Qed.

(** C8: identifiers are unique across the store: no [ID] occurs twice, so
    records at two distinct positions have different [ID]s, and for every
    id at most one record of the store passes the test of [findById]. *)
Theorem students_ID_unique :
  length students = 40
  /\ NoDup (map ID students)
  /\ (forall i j ri rj,
         nth_error students i = Some ri -> nth_error students j = Some rj ->
         i <> j -> ID ri <> ID rj)
  /\ (forall id,
         length (filter (fun student => ID student === id) students) <= 1).
Proof.
  split; [reflexivity|].
  split; [exact students_ID_NoDup|].
  split.
  - apply NoDup_map_positions, students_ID_NoDup.
  - intros id. apply NoDup_ID_one_match, students_ID_NoDup.
Qed.

Lemma students_ID_unique_witness :
  exists ri rj,
    nth_error students 0 = Some ri /\ nth_error students 39 = Some rj
    /\ 0 <> 39 /\ ID ri <> ID rj.
Proof.
  eexists; eexists.
  split; [reflexivity|]. split; [reflexivity|]. split; [lia|].
  apply (proj1 (proj2 (proj2 students_ID_unique)) 0 39);
    [reflexivity | reflexivity | lia].
Defined.

(** C9: on the store, [findById] with "S001" answers the record whose
    [firstname] is "Anna" and whose [lastname] is "Schmidt", and with
    "S999" it answers [null]. *)
Theorem findById_S001_S999 :
  (exists r,
      findById students (utf16 "S001") = Object r
      /\ firstname r = utf16 "Anna" /\ lastname r = utf16 "Schmidt")
  /\ findById students (utf16 "S999") = Null.
Proof.
  split; [|vm_compute; reflexivity].
  eexists; split; [vm_compute; reflexivity|].
  split; vm_compute; reflexivity.
Qed.

(** C10: the store has exactly 40 records; each of the four subjects
    "Physics", "Mathematics", "Computer Science" and "Medicine" selects
    exactly 10 of them, 5 with [gender] "male" and 5 with [gender]
    "female"; so [filterByGender] selects exactly 20 records for "female"
    and 20 for "male". *)
Theorem store_composition `{Runtime} :
  length students = 40
  /\ Forall
       (fun subject =>
          let selected := filterBySubject students subject in
          length selected = 10
          /\ length (filter (fun r => gender r === utf16 "male") selected) = 5
          /\ length (filter (fun r => gender r === utf16 "female") selected) = 5
          /\ length (filterByGender selected (utf16 "male")) = 5
          /\ length (filterByGender selected (utf16 "female")) = 5)
       (map utf16 ["Physics"; "Mathematics"; "Computer Science"; "Medicine"]%string)
  /\ length (filterByGender students (utf16 "female")) = 20
  /\ length (filterByGender students (utf16 "male")) = 20.
Proof.
  split; [reflexivity|].
  split; [|split; vm_compute; reflexivity].
  repeat constructor; vm_compute; reflexivity.
Qed.


(** * Further properties of the filters *)

Section MoreFilterFacts.
Context `{Runtime}.

Lemma sameLower_refl (a : jsstring) : (toLowerCase a === toLowerCase a) = true.
Proof. apply strictEquals_refl. Qed.

(** Two callbacks whose results agree on a one-element sequence agree on
    that element. *)
Lemma filter_singleton_agree (A : Type) (f g : A -> bool) (x : A) :
  filter f [x] = filter g [x] -> f x = g x.
Proof. simpl. destruct (f x), (g x); congruence. Qed.
End MoreFilterFacts.

(** X1: a record of the input is selected by its own field values:
    [filterByCity] with its city keeps it, and so do [filterBySubject] with
    its subject, [filterByGender] with its gender, and [filterByName] with
    its first name and with its last name. *)
Theorem record_selected_by_own_fields `{Runtime}
        (records : list Student.t) (r : Student.t) :
  In r records ->
  In r (filterByCity records (city r))
  /\ In r (filterBySubject records (studysubject r))
  /\ In r (filterByGender records (gender r))
  /\ In r (filterByName records (firstname r))
  /\ In r (filterByName records (lastname r)).
Proof.
  intros Hr.
  unfold filterByCity, filterBySubject, filterByGender, filterByName.
  rewrite !filter_In, !sameLower_refl, orb_true_r. simpl. tauto.
Qed.

Lemma record_selected_by_own_fields_witness :
  exists r,
    nth_error students 1 = Some r
    /\ In r (@filterByName latin1Runtime students (lastname r)).
Proof.
  eexists. split; [reflexivity|].
  refine (proj2 (proj2 (proj2 (proj2
    (@record_selected_by_own_fields latin1Runtime students _ _))))).
  apply nth_error_In with (n := 1). reflexivity.
Defined.

(** X2: two arguments give the same result on every input exactly when they
    are equal under case-insensitive comparison; this holds for each of the
    four filters.  On the store, "FEMALE" and "female" select the same
    records. *)
Theorem filters_argument_case_insensitive `{Runtime} (a b : jsstring) :
  Forall
    (fun filterBy : list Student.t -> jsstring -> list Student.t =>
       sameLower a b <-> forall records, filterBy records a = filterBy records b)
    [filterByCity; filterBySubject; filterByGender; filterByName]
  /\ filterByGender students (utf16 "FEMALE")
     = filterByGender students (utf16 "female").
Proof.
  split; [|vm_compute; reflexivity].
  assert (Hto : forall filterBy : list Student.t -> jsstring -> list Student.t,
             In filterBy [filterByCity; filterBySubject; filterByGender; filterByName] ->
             sameLower a b -> forall records, filterBy records a = filterBy records b).
  { intros filterBy Hin Hab records. unfold sameLower in Hab.
    simpl in Hin. destruct Hin as [<-|[<-|[<-|[<-|[]]]]];
      unfold filterByCity, filterBySubject, filterByGender, filterByName;
      rewrite Hab; reflexivity. }
  assert (Hfrom : forall filterBy : list Student.t -> jsstring -> list Student.t,
             In filterBy [filterByCity; filterBySubject; filterByGender; filterByName] ->
             (forall records, filterBy records a = filterBy records b) ->
             sameLower a b).
  { intros filterBy Hin Hsame.
    specialize (Hsame [Student.mk a a a a a a a]).
    simpl in Hin. destruct Hin as [<-|[<-|[<-|[<-|[]]]]];
      unfold filterByCity, filterBySubject, filterByGender, filterByName in Hsame;
      apply filter_singleton_agree in Hsame; simpl in Hsame;
      rewrite sameLower_refl in Hsame; simpl in Hsame; symmetry in Hsame;
      try rewrite orb_diag in Hsame; apply sameLower_callback, Hsame. }
  apply Forall_forall. intros filterBy Hin.
  split; [apply Hto | apply Hfrom]; exact Hin.
Qed.

(** X3: any two of the four filters commute: applying one and then the
    other gives the same sequence as applying them the other way round. *)
Theorem filters_commute `{Runtime}
        (records : list Student.t) (a b : jsstring) :
  Forall
    (fun first : list Student.t -> jsstring -> list Student.t =>
       Forall
         (fun second : list Student.t -> jsstring -> list Student.t =>
            second (first records a) b = first (second records b) a)
         [filterByCity; filterBySubject; filterByGender; filterByName])
    [filterByCity; filterBySubject; filterByGender; filterByName].
Proof. repeat constructor; apply filter_swap. Qed.

(** X4: each of the four filters is idempotent in its input. *)
Theorem filters_idempotent `{Runtime}
        (records : list Student.t) (a : jsstring) :
  Forall
    (fun filterBy : list Student.t -> jsstring -> list Student.t =>
       filterBy (filterBy records a) a = filterBy records a)
    [filterByCity; filterBySubject; filterByGender; filterByName].
Proof. repeat constructor; apply filter_idempotent. Qed.

(** X5: two values that differ under case-insensitive comparison exclude
    each other: filtering by one and then, on the same field, by the other
    leaves nothing.  This holds for city, subject and gender. *)
Theorem distinct_values_exclude `{Runtime}
        (records : list Student.t) (a b : jsstring) :
  ~ sameLower a b ->
  filterByCity (filterByCity records a) b = []
  /\ filterBySubject (filterBySubject records a) b = []
  /\ filterByGender (filterByGender records a) b = [].
Proof.
  intros Hab.
  assert (Hfield : forall field : Student.t -> jsstring,
             filter (fun student => toLowerCase (field student) === toLowerCase b)
               (filter (fun student => toLowerCase (field student) === toLowerCase a)
                  records) = []).
  { intros field. rewrite filter_twice. apply filter_none. intros x _.
    apply andb_false_iff.
    destruct (strictEquals_reflect (toLowerCase (field x)) (toLowerCase a)) as [Ea|];
      [|left; reflexivity].
    right. apply strictEquals_false_iff. intros Eb.
    apply Hab. unfold sameLower. congruence. }
  repeat split; apply Hfield.
Qed.

Lemma distinct_values_exclude_witness :
  @filterByGender latin1Runtime
    (@filterByGender latin1Runtime students (utf16 "male")) (utf16 "female") = [].
Proof.
  refine (proj2 (proj2
    (@distinct_values_exclude latin1Runtime students (utf16 "male") (utf16 "female") _))).
  intros Hsame. vm_compute in Hsame. discriminate.
Defined.

(** The same does not hold for [filterByName], which looks at two fields. *)
Lemma filterByName_values_overlap `{Runtime} :
  ~ sameLower (utf16 "Anna") (utf16 "Schmidt")
  /\ map ID (filterByName (filterByName students (utf16 "Anna")) (utf16 "Schmidt"))
     = [utf16 "S001"].
Proof.
  split; [intros Hsame; vm_compute in Hsame; discriminate | vm_compute; reflexivity].
Qed.

(** * Identifiers under filtering and lookup *)

Lemma NoDup_map_filter (A B : Type) (f : A -> B) (g : A -> bool) (l : list A) :
  NoDup (map f l) -> NoDup (map f (filter g l)).
Proof.
  induction l as [|x l IH]; simpl; intros Hnodup; [constructor|].
  inversion Hnodup as [|? ? Hfresh Hrest]; subst.
  destruct (g x); simpl; auto.
  constructor; auto.
  intros Hin. apply Hfresh.
  apply in_map_iff in Hin. destruct Hin as (y & Hy & Hin).
  apply filter_In in Hin. rewrite <- Hy. apply in_map, Hin.
Qed.

(** X6: the filters keep identifiers unique: when no [ID] occurs twice in
    the input, none occurs twice in the output of any of the four
    filters. *)
Theorem filters_keep_ID_unique `{Runtime}
        (records : list Student.t) (a : jsstring) :
  NoDup (map ID records) ->
  Forall
    (fun filterBy : list Student.t -> jsstring -> list Student.t =>
       NoDup (map ID (filterBy records a)))
    [filterByCity; filterBySubject; filterByGender; filterByName].
Proof. intros Hnodup. repeat constructor; apply NoDup_map_filter, Hnodup. Qed.

Lemma filters_keep_ID_unique_witness :
  NoDup (map ID (@filterByCity latin1Runtime students (utf16 "Vienna"))).
Proof.
  exact (Forall_inv
    (@filters_keep_ID_unique latin1Runtime students (utf16 "Vienna")
       students_ID_NoDup)).
Defined.

Lemma find_member (records : list Student.t) (r : Student.t) :
  In r records -> NoDup (map ID records) ->
  find (fun student => ID student === ID r) records = Some r.
Proof.
  induction records as [|a records IH]; simpl; [tauto|].
  intros Hin Hnodup. inversion Hnodup as [|? ? Hfresh Hrest]; subst.
  destruct (strictEquals_reflect (ID a) (ID r)) as [Heq|Hne].
  - destruct Hin as [->|Hin]; [reflexivity|].
    exfalso. apply Hfresh. rewrite Heq. apply in_map, Hin.
  - destruct Hin as [->|Hin]; [congruence | auto].
Qed.

(** X7: looking a record up by its own [ID] gives that record back,
    provided the record is in the sequence and no [ID] occurs twice
    there. *)
Theorem findById_member (records : list Student.t) (r : Student.t) :
  In r records -> NoDup (map ID records) ->
  findById records (ID r) = Object r.
Proof.
  intros Hin Hnodup. unfold findById, array_find.
  rewrite (@find_member records r Hin Hnodup). reflexivity.
Qed.

Lemma findById_member_witness :
  exists r,
    nth_error students 39 = Some r /\ findById students (ID r) = Object r.
Proof.
  eexists. split; [reflexivity|].
  apply findById_member; [|exact students_ID_NoDup].
  apply nth_error_In with (n := 39). reflexivity.
Defined.

Lemma findById_Object_iff (records : list Student.t) (id : jsstring) (r : Student.t) :
  findById records id = Object r
  <-> find (fun student => ID student === id) records = Some r.
Proof.
  unfold findById, array_find, or_else.
  destruct (find _ records); simpl; split; congruence.
Qed.

Lemma findById_found_iff (records : list Student.t) (id : jsstring) :
  findById records id <> Null <-> In id (map ID records).
Proof.
  unfold findById, array_find, or_else.
  destruct (find _ records) as [r|] eqn:Hfind; simpl.
  - apply find_some in Hfind. destruct Hfind as [Hin Hid].
    apply strictEquals_true_iff in Hid.
    split; [intros _; rewrite <- Hid; apply in_map, Hin | discriminate].
  - split; [congruence|].
    intros Hin _. apply in_map_iff in Hin. destruct Hin as (x & Hx & Hin).
    pose proof (find_none _ _ Hfind x Hin) as Hno.
    apply strictEquals_false_iff in Hno. contradiction.
Qed.

Lemma find_filter (A : Type) (test keep : A -> bool) (l : list A) (x : A) :
  find test l = Some x -> keep x = true -> find test (filter keep l) = Some x.
Proof.
  induction l as [|a l IH]; simpl; [discriminate|].
  intros Hfind Hkeep.
  destruct (test a) eqn:Ha.
  - injection Hfind as ->. rewrite Hkeep. simpl. rewrite Ha. reflexivity.
  - destruct (keep a); simpl; [rewrite Ha|]; auto.
Qed.

(** X8: lookup goes through a filter: when [findById] finds [r] under [id]
    in the input and [r] survives a filter, [findById] finds [r] under [id]
    in the filter's output as well. *)
Theorem findById_after_filter `{Runtime}
        (records : list Student.t) (a id : jsstring) (r : Student.t) :
  findById records id = Object r ->
  Forall
    (fun filterBy : list Student.t -> jsstring -> list Student.t =>
       In r (filterBy records a) -> findById (filterBy records a) id = Object r)
    [filterByCity; filterBySubject; filterByGender; filterByName].
Proof.
  intros Hfound. apply findById_Object_iff in Hfound.
  repeat constructor; intros Hin; apply findById_Object_iff;
    apply filter_In in Hin; destruct Hin as [_ Hkeep];
    apply (find_filter _ _ _ Hfound Hkeep).
Qed.

Lemma findById_after_filter_witness :
  exists r,
    findById students (utf16 "S001") = Object r
    /\ In r (@filterByCity latin1Runtime students (utf16 "Munich"))
    /\ findById (@filterByCity latin1Runtime students (utf16 "Munich")) (utf16 "S001")
       = Object r.
Proof.
  pose (r := hd (Student.mk [] [] [] [] [] [] []) students).
  exists r.
  assert (Hfound : findById students (utf16 "S001") = Object r)
    by (vm_compute; reflexivity).
  assert (Hin : In r (@filterByCity latin1Runtime students (utf16 "Munich"))).
  { apply filter_In. split; [|vm_compute; reflexivity].
    apply nth_error_In with (n := 0). reflexivity. }
  split; [exact Hfound|]. split; [exact Hin|].
  exact (Forall_inv
    (@findById_after_filter latin1Runtime students (utf16 "Munich") _ _ Hfound) Hin).
Defined.

(** X9: with unique identifiers, what [findById] finds in the output of a
    filter is what it finds in the input. *)
Theorem findById_before_filter `{Runtime}
        (records : list Student.t) (a id : jsstring) (r : Student.t) :
  NoDup (map ID records) ->
  Forall
    (fun filterBy : list Student.t -> jsstring -> list Student.t =>
       findById (filterBy records a) id = Object r ->
       findById records id = Object r)
    [filterByCity; filterBySubject; filterByGender; filterByName].
Proof.
  intros Hnodup.
  repeat constructor; intros Hfound; apply findById_Object_iff in Hfound;
    apply find_some in Hfound; destruct Hfound as [Hin Hid];
    apply filter_In in Hin; destruct Hin as [Hin _];
    apply strictEquals_true_iff in Hid; subst id;
    apply findById_Object_iff, find_member; assumption.
Qed.

Lemma findById_before_filter_witness :
  exists r,
    findById (@filterByGender latin1Runtime students (utf16 "male")) (utf16 "S002")
    = Object r
    /\ findById students (utf16 "S002") = Object r.
Proof.
  pose (r := nth 1 students (Student.mk [] [] [] [] [] [] [])).
  exists r.
  assert (Hfound :
            findById (@filterByGender latin1Runtime students (utf16 "male"))
                     (utf16 "S002") = Object r)
    by (vm_compute; reflexivity).
  split; [exact Hfound|].
  exact (Forall_inv (Forall_inv_tail (Forall_inv_tail
    (@findById_before_filter latin1Runtime students (utf16 "male") (utf16 "S002") _
       students_ID_NoDup))) Hfound).
Defined.

(** Without unique identifiers it can fail: of two records with the same
    [ID], the filter may drop the first. *)
Lemma findById_before_filter_needs_unique `{Runtime} :
  let first := Student.mk (utf16 "S1") [] [] [] [] [] (utf16 "Rome") in
  let second := Student.mk (utf16 "S1") [] [] [] [] [] (utf16 "Paris") in
  findById (filterByCity [first; second] (utf16 "Paris")) (utf16 "S1") = Object second
  /\ findById [first; second] (utf16 "S1") = Object first.
Proof. split; vm_compute; reflexivity. Qed.

(** * The pages *)

(** X10: the single-student page and its paths fit together: the path at
    position [i] carries the [ID] of the store's record at position [i],
    and [getStaticProps] on that path answers this very record; and
    [getStaticProps] answers a student (not [null]) exactly on the paths
    that [getStaticPaths] lists. *)
Theorem StudentPage_paths_round_trip :
  (forall i r,
      nth_error students i = Some r ->
      nth_error (paths StudentPage.getStaticPaths) i
      = Some {| StudentPage.ID := ID r |}
      /\ StudentPage.getStaticProps {| StudentPage.ID := ID r |} = Object r)
  /\ (forall p,
         In p (paths StudentPage.getStaticPaths)
         <-> StudentPage.getStaticProps p <> Null).
Proof.
  split.
  - intros i r Hi. split.
    + apply (map_nth_error (fun student => {| StudentPage.ID := ID student |}) _ _ Hi).
    + apply findById_Object_iff, find_member; [|exact students_ID_NoDup].
      apply nth_error_In with (n := i). exact Hi.
  - intros [id]. unfold StudentPage.getStaticProps. simpl StudentPage.ID.
    rewrite findById_found_iff.
    unfold StudentPage.getStaticPaths, paths. rewrite !in_map_iff.
    split; intros (x & Hx & Hin); exists x; split; congruence.
Qed.

Lemma StudentPage_paths_round_trip_witness :
  exists r,
    nth_error students 6 = Some r
    /\ StudentPage.getStaticProps {| StudentPage.ID := ID r |} = Object r.
Proof.
  eexists. split; [reflexivity|].
  refine (proj2 (proj1 StudentPage_paths_round_trip 6 _ _)).
  reflexivity.
Defined.

Lemma filter_if_truthy (A : Type) (guard : bool) (f : A -> bool) (l : list A) :
  (if guard then filter f l else l) = filter (fun x => negb guard || f x) l.
Proof.
  destruct guard; simpl; [reflexivity|].
  symmetry. apply filter_true.
Qed.

Lemma string_truthy_false_iff (s : jsstring) :
  CSRPage.string_truthy s = false <-> s = [].
Proof. destruct s; simpl; split; congruence. Qed.

(** X11: the client-side page shows exactly the records of the store that
    pass both selections, in store order, where an empty selection ("All")
    passes every record and a non-empty one passes the records whose field
    equals it case-insensitively.  (Calling [filterByGender] with the empty
    string instead would select nothing from the store.) *)
Theorem CSRPage_filteredStudents_Selects `{Runtime} (g s : jsstring) :
  Selects
    (fun r => (g = [] \/ sameLower (gender r) g)
              /\ (s = [] \/ sameLower (studysubject r) s))
    students (CSRPage.filteredStudents g s)
  /\ CSRPage.filteredStudents [] [] = students
  /\ filterByGender students [] = [].
Proof.
  split; [|split; [reflexivity | vm_compute; reflexivity]].
  unfold CSRPage.filteredStudents, filterByGender, filterBySubject.
  rewrite !filter_if_truthy, filter_twice.
  apply Selects_filter. intros r.
  rewrite andb_true_iff, !orb_true_iff, !negb_true_iff,
    !string_truthy_false_iff, !sameLower_callback.
  reflexivity.
Qed.

Lemma getStaticProps_incl `{Runtime} (params : option (list jsstring)) :
  incl (getStaticProps params) students.
Proof.
  intros r.
  destruct params as [[|[|u g] [|[|v s] rest]]|];
    unfold getStaticProps, filterByGender, filterBySubject;
    cbv beta iota zeta delta [nth_error];
    rewrite ?filter_In; tauto.
Qed.

(** X12: the catch-all page computes what the client-side page computes:
    for every [params], its students are those of the client-side page
    with the first path segment as gender and the second as subject, a
    missing segment counting as the empty selection; segments after the
    second are never looked at. *)
Theorem getStaticProps_as_filteredStudents `{Runtime}
        (params : option (list jsstring)) :
  let segments := match params with Some segments => segments | None => [] end in
  getStaticProps params
  = CSRPage.filteredStudents (nth 0 segments []) (nth 1 segments []).
Proof.
  destruct params as [[|[|u g] [|[|v s] rest]]|];
    cbv beta iota zeta
        delta [getStaticProps CSRPage.filteredStudents CSRPage.string_truthy
               nth nth_error];
    reflexivity.
Qed.

(** X13: the paths of the catch-all page cover the store without overlap:
    the first path is the root, whose page lists the whole store, and the
    pages of the remaining paths, one after the other, list every record
    of the store exactly once. *)
Theorem catch_all_pages_partition `{Runtime} :
  hd_error (paths getStaticPaths) = Some None
  /\ getStaticProps None = students
  /\ Permutation
       (concat (map getStaticProps (tl (paths getStaticPaths))))
       students.
Proof.
  split; [reflexivity|]. split; [reflexivity|].
  apply NoDup_Permutation_bis.
  - apply NoDup_map_inv with (f := ID).
    assert (Hfixed :
              nodup (list_eq_dec N.eq_dec)
                    (map ID (concat (map getStaticProps (tl (paths getStaticPaths)))))
              = map ID (concat (map getStaticProps (tl (paths getStaticPaths)))))
      by (vm_compute; reflexivity).
    rewrite <- Hfixed. apply NoDup_nodup.
  - assert (Hlength :
              length (concat (map getStaticProps (tl (paths getStaticPaths)))) = 40)
      by (vm_compute; reflexivity).
    rewrite Hlength. apply Nat.eq_le_incl. reflexivity.
  - intros r Hr. apply in_concat in Hr. destruct Hr as (page & Hpage & Hr).
    apply in_map_iff in Hpage. destruct Hpage as (params & <- & _).
    exact (getStaticProps_incl params r Hr).
Qed.
